(** * AI Testing Factory: the batch handler of [main.py]

    A shallow embedding of the two request handlers of [main.py]
    ([handle_test_run] and [view_report]) together with the in-memory
    report store [REPORT_DB], followed by the properties of the batch run
    that the design document states about them.

    The handlers talk to collaborators that live outside [main.py]: the
    upload on disk, [file_handler.parse_test_file], [uuid.uuid4],
    [gemini_client.generate_initial_script], [executor.execute_test_case]
    and [time.sleep].  They are taken as functions over an abstract
    [World]; every call is also written to a call log, so that statements
    such as "the executor is never invoked" can be made.  [REPORT_DB] is a
    module global of [main.py]; the collaborators do not import [main], so
    they act on the [World] only.  Console output ([print]) is left out. *)

From stdpp Require Import gmap strings list fin_maps pretty.
From Stdlib Require Import ZArith Lia.
From Equations Require Import Equations.

Open Scope string_scope.

(** ** Python values and strings *)

(** The cells of a parsed row.  A float is carried by its [repr] text
    (["1.0"], ["nan"], ...), which is all [str] needs. *)
Inductive PyVal :=
| PyNone
| PyBool (b : bool)
| PyInt (z : Z)
| PyFloat (repr : string)
| PyStr (s : string).

(** [str(v)] *)
Definition py_str (v : PyVal) : string :=
  match v with
  | PyNone => "None"
  | PyBool true => "True"
  | PyBool false => "False"
  | PyInt z => pretty z
  | PyFloat repr => repr
  | PyStr s => s
  end.

(** Truth value of a [str]: only the empty string is falsy. *)
Definition str_truthy (s : string) : bool :=
  match s with
  | EmptyString => false
  | String _ _ => true
  end.

(** [sub in s] on strings. *)
Fixpoint str_in (sub s : string) : bool :=
  String.prefix sub s ||
  match s with
  | EmptyString => false
  | String _ s' => str_in sub s'
  end.

(** [os.path.join(a, b)] for two POSIX components. *)
Definition os_path_join (a b : string) : string :=
  if String.prefix "/" b then b
  else if negb (str_truthy a) then b
  else if String.eqb (String.substring (String.length a - 1) 1 a) "/" then a +:+ b
  else a +:+ "/" +:+ b.

(** [enumerate(l)] *)
Fixpoint enumerate_from {A : Type} (start : nat) (l : list A) : list (nat * A) :=
  match l with
  | [] => []
  | x :: l' => (start, x) :: enumerate_from (S start) l'
  end.

Definition enumerate {A : Type} (l : list A) : list (nat * A) :=
  enumerate_from 0 l.

(** ** Data model *)

(** A row of the uploaded file: field name to cell. *)
Abbreviation TestCase := (gmap string PyVal).

Inductive Outcome := OutcomePass | OutcomeFail | OutcomeError.
Inductive Status := Pass | Fail.

(** One entry of a report's ["history"]. *)
Record Attempt := mkAttempt {
  attempt : nat;
  script : string;
  outcome : Outcome;
  error : option string
}.

Record TestCaseReport := mkTestCaseReport {
  test_case_id : string;
  status : Status;
  retries : nat;
  history : list Attempt
}.

(** [final_report] *)
Record RunReport := mkRunReport {
  run_id : string;
  test_cases : list TestCaseReport
}.

(** A call that raises is caught in [handle_test_run] only around the
    parser; the message is [str(e)]. *)
Inductive Raises (A : Type) :=
| Returned (a : A)
| Raised (e : string).
Arguments Returned {A} a.
Arguments Raised {A} e.

(** Template context besides ["request"]. *)
Inductive Context :=
| CtxRequest
| CtxError (error : string)
| CtxReport (report : RunReport).

Inductive Response :=
| TemplateResponse (name : string) (context : Context)
| RedirectResponse (url : string) (status_code : nat).

(** Calls that leave [main.py], and the one write to [REPORT_DB]. *)
Inductive Call :=
| SaveUpload (file_path : string)
| ParseTestFile (file_path : string)
| Uuid4
| GenerateInitialScript (test_case : TestCase)
| ExecuteTestCase (test_case_id initial_script results_dir : string)
| Sleep (seconds : nat)
| StoreReport (run_id : string).

Definition UPLOADS_DIR : string := "uploads".
Definition RESULTS_DIR : string := "test_results".
Definition ID_FIELD : string := "TestCase Name/ID".
Definition ERROR_MARKER : string := "# Gemini API Error".

(** [str(test_case.get('TestCase Name/ID', f'TestCase_{i+1}'))] *)
Definition test_case_id_of (i : nat) (test_case : TestCase) : string :=
  py_str (default (PyStr ("TestCase_" +:+ pretty (i + 1))) (test_case !! ID_FIELD)).

(** [not initial_script or "# Gemini API Error" in initial_script] *)
Definition generation_failed (initial_script : option string) : bool :=
  match initial_script with
  | None => true
  | Some s => negb (str_truthy s) || str_in ERROR_MARKER s
  end.

(** The report written by [handle_test_run] itself when generation fails. *)
Definition generation_failure_report (test_case_id : string)
    (initial_script : option string) : TestCaseReport :=
  {| test_case_id := test_case_id;
     status := Fail;
     retries := 0;
     history := [ {| attempt := 1;
                     script := "Failed to generate script from Gemini.";
                     outcome := OutcomeFail;
                     error := initial_script |} ] |}.

(** A [dict] is truthy when it has a key; a stored report has two. *)
Definition report_keys (r : RunReport) : list string := ["run_id"; "test_cases"].
Definition report_truthy (r : RunReport) : bool :=
  negb (Nat.eqb (length (report_keys r)) 0).

(** ** The handlers *)

Section Handlers.

Context {World : Type}.

(** [shutil.copyfileobj(test_file.file, buffer)] into [file_path]. *)
Variable save_upload : World -> string -> list Byte.byte -> World.
(** [file_handler.parse_test_file(file_path)] *)
Variable parse_test_file : World -> string -> Raises (list TestCase) * World.
(** [str(uuid.uuid4())] *)
Variable uuid4 : World -> string * World.
(** [gemini_client.generate_initial_script(test_case)]; [None] is Python's. *)
Variable generate_initial_script : World -> TestCase -> option string * World.
(** [executor.execute_test_case(test_case_id, initial_script, RESULTS_DIR)] *)
Variable execute_test_case :
  World -> string -> string -> string -> TestCaseReport * World.
(** [time.sleep(seconds)] *)
Variable sleep : World -> nat -> World.

Record State := mkState {
  world : World;
  REPORT_DB : gmap string RunReport;
  calls : list Call
}.

Definition M (A : Type) : Type := State -> A * State.

Definition ret {A : Type} (a : A) : M A := fun st => (a, st).

Definition bind {A B : Type} (m : M A) (k : A -> M B) : M B :=
  fun st => let (a, st') := m st in k a st'.

Notation "'do' x <- m ;; k" := (bind m (fun x => k))
  (at level 10, x name, m at level 99, k at level 200, only parsing).

(** An outside call: run it on the world and log it. *)
Definition outside {A : Type} (c : Call) (f : World -> A * World) : M A :=
  fun st =>
    let (a, w) := f (world st) in
    (a, {| world := w; REPORT_DB := REPORT_DB st; calls := (calls st ++ [c])%list |}).

Definition do_save_upload (file_path : string) (content : list Byte.byte) : M unit :=
  outside (SaveUpload file_path) (fun w => (tt, save_upload w file_path content)).

Definition do_parse_test_file (file_path : string) : M (Raises (list TestCase)) :=
  outside (ParseTestFile file_path) (fun w => parse_test_file w file_path).

Definition do_uuid4 : M string :=
  outside Uuid4 uuid4.

Definition do_generate_initial_script (test_case : TestCase) : M (option string) :=
  outside (GenerateInitialScript test_case)
          (fun w => generate_initial_script w test_case).

Definition do_execute_test_case (test_case_id initial_script results_dir : string)
    : M TestCaseReport :=
  outside (ExecuteTestCase test_case_id initial_script results_dir)
          (fun w => execute_test_case w test_case_id initial_script results_dir).

Definition do_sleep (seconds : nat) : M unit :=
  outside (Sleep seconds) (fun w => (tt, sleep w seconds)).

(** [REPORT_DB[run_id] = final_report] *)
Definition db_store (run_id : string) (final_report : RunReport) : M unit :=
  fun st =>
    (tt, {| world := world st;
            REPORT_DB := <[run_id := final_report]> (REPORT_DB st);
            calls := (calls st ++ [StoreReport run_id])%list |}).

(** [REPORT_DB.get(run_id)] *)
Definition db_get (run_id : string) : M (option RunReport) :=
  fun st => (REPORT_DB st !! run_id, st).

(** [read_root] *)
Definition read_root : M Response :=
  ret (TemplateResponse "index.html" CtxRequest).

(** The part of the loop body after the [continue] test: builds
    [test_report] for one row. *)
Definition build_test_report (test_case_id : string) (test_case : TestCase)
    : M TestCaseReport :=
  do initial_script <- do_generate_initial_script test_case ;;
  match initial_script with
  | Some s =>
      if generation_failed initial_script
      then ret (generation_failure_report test_case_id initial_script)
      else do_execute_test_case test_case_id s RESULTS_DIR
  | None => ret (generation_failure_report test_case_id initial_script)
  end.

(** One iteration of [for i, test_case in enumerate(test_cases)];
    [collected] is [final_report["test_cases"]]. *)
Definition loop_body (row : nat * TestCase) (collected : list TestCaseReport)
    : M (list TestCaseReport) :=
  let (i, test_case) := row in
  let test_case_id := test_case_id_of i test_case in
  if negb (str_truthy test_case_id) then ret collected
  else
    do test_report <- build_test_report test_case_id test_case ;;
    do _ <- do_sleep 2 ;;
    ret ((collected ++ [test_report])%list).

Fixpoint for_each (rows : list (nat * TestCase)) (collected : list TestCaseReport)
    : M (list TestCaseReport) :=
  match rows with
  | [] => ret collected
  | row :: rest =>
      do collected' <- loop_body row collected ;;
      for_each rest collected'
  end.

(** [handle_test_run] from the point where the rows are parsed. *)
Definition run_tests (test_cases : list TestCase) : M Response :=
  do run_id <- do_uuid4 ;;
  do reports <- for_each (enumerate test_cases) [] ;;
  do _ <- db_store run_id {| run_id := run_id; test_cases := reports |} ;;
  ret (RedirectResponse ("/report/" +:+ run_id) 303).

(** [handle_test_run(request, test_file)] *)
Definition handle_test_run (filename : string) (content : list Byte.byte)
    : M Response :=
  let file_path := os_path_join UPLOADS_DIR filename in
  do _ <- do_save_upload file_path content ;;
  do parsed <- do_parse_test_file file_path ;;
  match parsed with
  | Raised e =>
      ret (TemplateResponse "index.html"
             (CtxError ("Failed to parse file: " +:+ e)))
  | Returned test_cases => run_tests test_cases
  end.

(** [view_report(request, run_id)] *)
Definition view_report (run_id : string) : M Response :=
  do report_data <- db_get run_id ;;
  match report_data with
  | Some r =>
      if negb (report_truthy r)
      then ret (TemplateResponse "index.html" (CtxError "Report not found!"))
      else ret (TemplateResponse "report.html" (CtxReport r))
  | None => ret (TemplateResponse "index.html" (CtxError "Report not found!"))
  end.

(** The application: its three routes, served one request after another
    from the state in which the module was loaded ([REPORT_DB = {}]). *)
Inductive Request :=
| GetRoot
| PostRunTests (filename : string) (content : list Byte.byte)
| GetReport (run_id : string).

Definition serve (req : Request) : M Response :=
  match req with
  | GetRoot => read_root
  | PostRunTests filename content => handle_test_run filename content
  | GetReport run_id => view_report run_id
  end.

Fixpoint serve_all (reqs : list Request) (st : State) : State :=
  match reqs with
  | [] => st
  | req :: rest => serve_all rest (snd (serve req st))
  end.

Definition initial_state (w : World) : State :=
  {| world := w; REPORT_DB := ∅; calls := [] |}.

(** The rows that pass the [continue] test, with their positions. *)
Definition kept_rows (test_cases : list TestCase) : list (nat * TestCase) :=
  List.filter (fun row => str_truthy (test_case_id_of (fst row) (snd row)))
              (enumerate test_cases).

(** [final_report["test_cases"]] when the loop is left. *)
Definition batch_reports (test_cases : list TestCase) (st : State)
    : list TestCaseReport :=
  fst (for_each (enumerate test_cases) [] st).

(** The state in which the loop is left after the first [k] rows. *)
Definition state_after_rows (k : nat) (test_cases : list TestCase) (st : State)
    : State :=
  snd (for_each (take k (enumerate test_cases)) [] st).

(** [r] is the [test_report] that the loop body builds for [row], in some
    state of the world. *)
Definition report_of_row (row : nat * TestCase) (r : TestCaseReport) : Prop :=
  exists st : State,
    r = fst (build_test_report (test_case_id_of (fst row) (snd row)) (snd row) st).

End Handlers.

(** Whether a row is skipped, in the words of the design document: its
    identifier is empty or missing. *)
Definition identifier_empty_or_missing (test_case : TestCase) : bool :=
  match test_case !! ID_FIELD with
  | None => true
  | Some v => negb (str_truthy (py_str v))
  end.

(** Whether a row is skipped, as the loop decides it: the identifier field
    is there and [str] of its cell is empty. *)
Definition identifier_renders_empty (test_case : TestCase) : bool :=
  match test_case !! ID_FIELD with
  | None => false
  | Some v => negb (str_truthy (py_str v))
  end.

(** ** The retry controller *)

(** What a generator or diagnoser call yields. *)
Inductive Generated :=
| Script (text : string)
| GenerationFailure (message : string).

Record ExecutionResult := mkExecutionResult {
  exec_outcome : Status;
  stdout : string;
  stderr : string;
  exitCode : Z;
  artifactPaths : list string
}.

Definition outcome_of (s : Status) : Outcome :=
  match s with
  | Pass => OutcomePass
  | Fail => OutcomeFail
  end.

Section RetryController.

Context {World : Type}.

(** The configured maximum number of retries. *)
Variable MAX_RETRIES : nat.
(** The script executor: [execute(script, workDir)]. *)
Variable execute : World -> string -> string -> ExecutionResult * World.
(** The failure diagnoser: [repair(testCase, previousScript, executionResult)];
    of the test case the controller is handed its identifier. *)
Variable repair : World -> string -> string -> ExecutionResult -> Generated * World.

Variable case_id : string.
Variable work_dir : string.

(** Modelled from the spec: the [Executing], [Diagnosing], [Passed] and
    [Exhausted] states of the retry controller, whose code
    ([mcp/executor.py]) is not among the sources.  [counter] is the attempt
    counter before the execution; an execution records an Attempt and
    increments it; a failure is repaired and retried while the counter is
    at most [MAX_RETRIES]; a repair that fails ends the case with a
    synthetic Attempt that carries the generation error. *)
Equations? executing (counter : nat) (code : string) (attempts : list Attempt)
    (w : World) : TestCaseReport * World by wf (S MAX_RETRIES - counter) lt :=
executing counter code attempts w :=
  let '(result, w1) := execute w code work_dir in
  let counter' := counter + 1 in
  let attempts' :=
    (attempts ++ [ {| attempt := counter';
                     script := code;
                     outcome := outcome_of (exec_outcome result);
                     error := Some (stderr result) |} ])%list in
  match exec_outcome result with
  | Pass =>
      ({| test_case_id := case_id; status := Pass;
          retries := counter' - 1; history := attempts' |}, w1)
  | Fail =>
      match le_dec counter' MAX_RETRIES with
      | left _ =>
          let '(repaired, w2) := repair w1 case_id code result in
          match repaired with
          | Script code' => executing counter' code' attempts' w2
          | GenerationFailure message =>
              ({| test_case_id := case_id; status := Fail;
                  retries := counter' - 1;
                  history :=
                    (attempts' ++
                     [ {| attempt := counter' + 1;
                          script := "Failed to generate script from Gemini.";
                          outcome := OutcomeFail;
                          error := Some message |} ])%list |}, w2)
          end
      | right _ =>
          ({| test_case_id := case_id; status := Fail;
              retries := counter' - 1; history := attempts' |}, w1)
      end
  end.
Proof. lia. Qed.

End RetryController.

(** Modelled from the spec: [executor.execute_test_case], the entry of the
    retry controller ([mcp/executor.py] is not among the sources).  It
    starts in [Executing] with the attempt counter at 0 and the script that
    [handle_test_run] generated, in a working directory of the test case
    under the results root. *)
Definition spec_execute_test_case {World : Type} (MAX_RETRIES : nat)
    (execute : World -> string -> string -> ExecutionResult * World)
    (repair : World -> string -> string -> ExecutionResult -> Generated * World)
    (w : World) (test_case_id initial_script results_dir : string)
    : TestCaseReport * World :=
  executing MAX_RETRIES execute repair test_case_id
            (os_path_join results_dir test_case_id) 0 initial_script [] w.

(** The invariants of a report. *)
Definition last_outcome (r : TestCaseReport) : option Outcome :=
  outcome <$> last (history r).

Definition status_matches_last (r : TestCaseReport) : Prop :=
  status r = Pass <-> last_outcome r = Some OutcomePass.

Definition attempts_within (max_retries : nat) (r : TestCaseReport) : Prop :=
  1 <= length (history r) <= max_retries + 1.

(** Classifying the call log. *)
Definition is_store (c : Call) : bool :=
  match c with
  | StoreReport _ => true
  | _ => false
  end.

Definition is_execute (c : Call) : bool :=
  match c with
  | ExecuteTestCase _ _ _ => true
  | _ => false
  end.

(** What a stretch of the handler may do to the state: the store is left
    alone and the log grows by calls that are not store writes. *)
Definition store_untouched {World : Type} (st st' : @State World) : Prop :=
  REPORT_DB st' = REPORT_DB st /\
  exists cs, calls st' = (calls st ++ cs)%list /\ Forall (fun c => is_store c = false) cs.

(** Every stored report sits under its own [run_id]. *)
Definition keyed_by_run_id (db : gmap string RunReport) : Prop :=
  map_Forall (fun k r => run_id r = k) db.

(** Every report of every stored run satisfies [P]. *)
Definition all_stored_reports (P : TestCaseReport -> Prop)
    (db : gmap string RunReport) : Prop :=
  map_Forall (fun _ r => Forall P (test_cases r)) db.

(** ** Stand-ins for the collaborators

    Deterministic doubles over a world that only counts the calls made,
    used to run the handlers on concrete batches. *)
Module Mock.

Definition save_upload (w : nat) (file_path : string) (content : list Byte.byte)
    : nat := S w.

(** A parser that yields [rows] whatever the file. *)
Definition parse_test_file (rows : Raises (list TestCase)) (w : nat)
    (file_path : string) : Raises (list TestCase) * nat := (rows, S w).

Definition uuid4 (w : nat) : string * nat := ("run-" +:+ pretty w, S w).

(** The script is the text of the row's ["Steps"] cell. *)
Definition generate_initial_script (w : nat) (test_case : TestCase)
    : option string * nat := (py_str <$> test_case !! "Steps", S w).

(** An executor that passes at the first attempt. *)
Definition execute_test_case (w : nat) (test_case_id initial_script results_dir : string)
    : TestCaseReport * nat :=
  ({| test_case_id := test_case_id; status := Pass; retries := 0;
      history := [ {| attempt := 1; script := initial_script;
                      outcome := OutcomePass; error := None |} ] |}, S w).

Definition sleep (w : nat) (seconds : nat) : nat := S w.

(** A script passes exactly when it reads ["ok"]. *)
Definition execute (w : nat) (script work_dir : string) : ExecutionResult * nat :=
  (if String.eqb script "ok"
   then {| exec_outcome := Pass; stdout := "done"; stderr := "";
           exitCode := 0; artifactPaths := [] |}
   else {| exec_outcome := Fail; stdout := ""; stderr := "NameError";
           exitCode := 1; artifactPaths := [] |}, S w).

(** The diagnoser repairs ["typo"], hands ["stuck"] back as it is and gives
    up on anything else. *)
Definition repair (w : nat) (test_case_id previous : string) (result : ExecutionResult)
    : Generated * nat :=
  (if String.eqb previous "typo" then Script "ok"
   else if String.eqb previous "stuck" then Script "stuck"
   else GenerationFailure "# Gemini API Error: quota", S w).

Definition row_login : TestCase :=
  {[ ID_FIELD := PyStr "login"; "Steps" := PyStr "ok" ]}.
Definition row_unnamed : TestCase :=
  {[ "Steps" := PyStr "ok" ]}.
Definition row_blank : TestCase :=
  {[ ID_FIELD := PyStr ""; "Steps" := PyStr "ok" ]}.
Definition row_quota : TestCase :=
  {[ ID_FIELD := PyStr "quota"; "Steps" := PyStr "# Gemini API Error: quota" ]}.
Definition row_typo : TestCase :=
  {[ ID_FIELD := PyInt 7; "Steps" := PyStr "typo" ]}.

Definition row_none : TestCase :=
  {[ ID_FIELD := PyNone; "Steps" := PyStr "ok" ]}.

Definition handle (rows : Raises (list TestCase)) :=
  handle_test_run save_upload (parse_test_file rows) uuid4
                  generate_initial_script execute_test_case sleep.

Definition handle_retrying (max_retries : nat) (rows : Raises (list TestCase)) :=
  handle_test_run save_upload (parse_test_file rows) uuid4
                  generate_initial_script
                  (spec_execute_test_case max_retries execute repair) sleep.

End Mock.

(** More of the call log. *)
Definition is_generate (c : Call) : bool :=
  match c with
  | GenerateInitialScript _ => true
  | _ => false
  end.

Definition is_sleep (c : Call) : bool :=
  match c with
  | Sleep _ => true
  | _ => false
  end.

(** An executor call as [handle_test_run] makes it: for a non-empty
    identifier, with a script that passed the test of line 67, under
    [RESULTS_DIR]. *)
Definition executor_call_ok (c : Call) : Prop :=
  match c with
  | ExecuteTestCase id s d =>
      str_truthy id = true /\ generation_failed (Some s) = false /\ d = RESULTS_DIR
  | _ => True
  end.

(** * Properties *)

Example os_path_join_upload : os_path_join UPLOADS_DIR "cases.xlsx" = "uploads/cases.xlsx".
Proof. reflexivity. Qed.

Example test_case_id_of_named : test_case_id_of 0 Mock.row_login = "login".
Proof. reflexivity. Qed.

Example test_case_id_of_unnamed : test_case_id_of 2 Mock.row_unnamed = "TestCase_3".
Proof. reflexivity. Qed.

Example test_case_id_of_number : test_case_id_of 0 Mock.row_typo = "7".
Proof. reflexivity. Qed.

Example generation_failed_marker :
  generation_failed (Some "x # Gemini API Error: quota") = true.
Proof. reflexivity. Qed.

Example generation_failed_script : generation_failed (Some "print(1)") = false.
Proof. reflexivity. Qed.

(** ** Rows *)

(** The [continue] test, read off the row. *)
Lemma skipped_iff_renders_empty (i : nat) (test_case : TestCase) :
  negb (str_truthy (test_case_id_of i test_case)) = identifier_renders_empty test_case.
Proof.
  unfold test_case_id_of, identifier_renders_empty.
  destruct (test_case !! ID_FIELD) as [v|]; reflexivity.
Qed.

(** ** The loop *)

Section HandlerProperties.

Context {World : Type}.
Variable save_upload : World -> string -> list Byte.byte -> World.
Variable parse_test_file : World -> string -> Raises (list TestCase) * World.
Variable uuid4 : World -> string * World.
Variable generate_initial_script : World -> TestCase -> option string * World.
Variable execute_test_case :
  World -> string -> string -> string -> TestCaseReport * World.
Variable sleep : World -> nat -> World.

Local Abbreviation build := (build_test_report generate_initial_script execute_test_case).
Local Abbreviation body := (loop_body generate_initial_script execute_test_case sleep).
Local Abbreviation loop := (for_each generate_initial_script execute_test_case sleep).
Local Abbreviation reports_of := (batch_reports generate_initial_script execute_test_case sleep).
Local Abbreviation run := (run_tests uuid4 generate_initial_script execute_test_case sleep).
Local Abbreviation handle :=
  (handle_test_run save_upload parse_test_file uuid4 generate_initial_script
                   execute_test_case sleep).

Lemma store_untouched_refl (st : @State World) : store_untouched st st.
Proof. split; [reflexivity|]. exists []. rewrite app_nil_r. auto. Qed.

Lemma store_untouched_trans (st1 st2 st3 : @State World) :
  store_untouched st1 st2 -> store_untouched st2 st3 -> store_untouched st1 st3.
Proof.
  intros [Hdb1 (cs1 & Hc1 & Hq1)] [Hdb2 (cs2 & Hc2 & Hq2)]. split.
  - congruence.
  - exists (cs1 ++ cs2)%list. split.
    + rewrite Hc2, Hc1, app_assoc. reflexivity.
    + apply Forall_app; auto.
Qed.

Lemma outside_untouched {A : Type} (c : Call) (f : World -> A * World) (st : State) :
  is_store c = false -> store_untouched st (snd (outside c f st)).
Proof.
  intros Hc. unfold outside. destruct (f (world st)) as [a w]. simpl.
  split; [reflexivity|]. exists [c]. auto.
Qed.

Lemma build_untouched (id : string) (test_case : TestCase) (st : State) :
  store_untouched st (snd (build id test_case st)).
Proof.
  unfold build_test_report, bind.
  pose proof (outside_untouched (GenerateInitialScript test_case)
    (fun w => generate_initial_script w test_case) st eq_refl) as Hg.
  unfold do_generate_initial_script.
  destruct (outside _ _ st) as [initial_script st1]. simpl in Hg.
  destruct initial_script as [s|]; [|exact Hg].
  destruct (generation_failed (Some s)); [exact Hg|].
  eapply store_untouched_trans; [exact Hg|].
  apply outside_untouched. reflexivity.
Qed.

Lemma body_untouched (row : nat * TestCase) (collected : list TestCaseReport)
    (st : State) :
  store_untouched st (snd (body row collected st)).
Proof.
  unfold loop_body. destruct row as [i test_case].
  destruct (negb (str_truthy (test_case_id_of i test_case))).
  - apply store_untouched_refl.
  - unfold bind.
    pose proof (build_untouched (test_case_id_of i test_case) test_case st) as Hb.
    destruct (build _ _ st) as [test_report st1]. simpl in Hb.
    pose proof (outside_untouched (Sleep 2) (fun w => (tt, sleep w 2)) st1 eq_refl) as Hs.
    unfold do_sleep. destruct (outside _ _ st1) as [u st2]. simpl in *.
    eapply store_untouched_trans; eauto.
Qed.

Lemma loop_untouched (rows : list (nat * TestCase)) (collected : list TestCaseReport)
    (st : State) :
  store_untouched st (snd (loop rows collected st)).
Proof.
  revert collected st. induction rows as [|row rows IH]; intros collected st; simpl.
  - apply store_untouched_refl.
  - unfold bind. pose proof (body_untouched row collected st) as Hb.
    destruct (body row collected st) as [collected' st1]. simpl in Hb.
    eapply store_untouched_trans; [exact Hb|apply IH].
Qed.

(** One iteration, with the [continue] test made explicit. *)
Lemma body_unfold (i : nat) (test_case : TestCase) (collected : list TestCaseReport)
    (st : State) :
  body (i, test_case) collected st =
  if str_truthy (test_case_id_of i test_case)
  then ((collected ++ [fst (build (test_case_id_of i test_case) test_case st)])%list,
        snd (do_sleep sleep 2 (snd (build (test_case_id_of i test_case) test_case st))))
  else (collected, st).
Proof.
  unfold loop_body, bind, ret.
  destruct (str_truthy (test_case_id_of i test_case)); simpl; [|reflexivity].
  destruct (build _ _ st) as [test_report st1]. simpl.
  destruct (do_sleep sleep 2 st1) as [u st2]. reflexivity.
Qed.

Lemma loop_cons (row : nat * TestCase) (rows : list (nat * TestCase))
    (collected : list TestCaseReport) (st : State) :
  loop (row :: rows) collected st =
  loop rows (fst (body row collected st)) (snd (body row collected st)).
Proof.
  cbn [for_each]. unfold bind. destruct (body row collected st). reflexivity.
Qed.

(** The reports collected so far are only ever appended to. *)
Lemma loop_collected (rows : list (nat * TestCase)) (collected : list TestCaseReport)
    (st : State) :
  loop rows collected st =
  ((collected ++ fst (loop rows [] st))%list, snd (loop rows [] st)).
Proof.
  revert collected st. induction rows as [|[i test_case] rows IH]; intros collected st.
  - cbn. rewrite app_nil_r. reflexivity.
  - rewrite !loop_cons, !body_unfold.
    destruct (str_truthy (test_case_id_of i test_case)); cbn [fst snd].
    + rewrite (IH (collected ++ _)%list), (IH ([] ++ _)%list). cbn [fst snd].
      rewrite <- app_assoc. reflexivity.
    + apply IH.
Qed.

(** Skipped rows can be removed beforehand. *)
Lemma loop_filter (rows : list (nat * TestCase)) (collected : list TestCaseReport)
    (st : State) :
  loop rows collected st =
  loop (List.filter (fun row => str_truthy (test_case_id_of (fst row) (snd row))) rows)
       collected st.
Proof.
  revert collected st. induction rows as [|[i test_case] rows IH]; intros collected st.
  - reflexivity.
  - cbn [List.filter fst snd].
    destruct (str_truthy (test_case_id_of i test_case)) eqn:Hid.
    + rewrite !loop_cons. apply IH.
    + rewrite loop_cons, body_unfold, Hid. apply IH.
Qed.

Lemma loop_length (rows : list (nat * TestCase)) (st : State) :
  length (fst (loop rows [] st)) =
  length (List.filter (fun row => str_truthy (test_case_id_of (fst row) (snd row))) rows).
Proof.
  revert st. induction rows as [|[i test_case] rows IH]; intros st.
  - reflexivity.
  - rewrite loop_cons, body_unfold. cbn [List.filter fst snd].
    destruct (str_truthy (test_case_id_of i test_case)); cbn [fst snd].
    + rewrite loop_collected. cbn [fst length app]. rewrite IH. reflexivity.
    + apply IH.
Qed.

Lemma loop_reports (rows : list (nat * TestCase)) (st : State) :
  Forall2 (report_of_row generate_initial_script execute_test_case)
    (List.filter (fun row => str_truthy (test_case_id_of (fst row) (snd row))) rows)
    (fst (loop rows [] st)).
Proof.
  revert st. induction rows as [|[i test_case] rows IH]; intros st.
  - constructor.
  - rewrite loop_cons, body_unfold. cbn [List.filter fst snd].
    destruct (str_truthy (test_case_id_of i test_case)); cbn [fst snd].
    + rewrite loop_collected. cbn [fst app]. constructor; [|apply IH].
      exists st. reflexivity.
    + apply IH.
Qed.

(** Filtering the rows by the [continue] test or by the shape of the row
    is the same thing. *)
Lemma kept_rows_length (test_cases : list TestCase) :
  length (kept_rows test_cases) =
  length (List.filter (fun test_case => negb (identifier_renders_empty test_case))
                      test_cases).
Proof.
  unfold kept_rows, enumerate. generalize 0.
  induction test_cases as [|test_case test_cases IH]; intros start; simpl.
  - reflexivity.
  - rewrite <- (skipped_iff_renders_empty start test_case), negb_involutive.
    destruct (str_truthy (test_case_id_of start test_case)); simpl; rewrite IH; reflexivity.
Qed.

(** ** The store *)

Lemma uuid4_untouched (st : State) : store_untouched st (snd (do_uuid4 uuid4 st)).
Proof. apply outside_untouched. reflexivity. Qed.

(** [run_tests], step by step. *)
Lemma run_unfold (test_cases : list TestCase) (st : State) :
  run test_cases st =
  let st1 := snd (do_uuid4 uuid4 st) in
  let id := fst (do_uuid4 uuid4 st) in
  let st2 := snd (loop (enumerate test_cases) [] st1) in
  (RedirectResponse ("/report/" +:+ id) 303,
   {| world := world st2;
      REPORT_DB := <[id := {| run_id := id; test_cases := reports_of test_cases st1 |}]>
                     (REPORT_DB st2);
      calls := (calls st2 ++ [StoreReport id])%list |}).
Proof.
  unfold run_tests, batch_reports, bind, ret, db_store.
  destruct (do_uuid4 uuid4 st) as [id st1]. cbn [fst snd].
  destruct (loop (enumerate test_cases) [] st1) as [reports st2]. reflexivity.
Qed.

(** The report of the batch sits in the store under the run identifier. *)
Lemma run_stores_reports (test_cases : list TestCase) (st : State) :
  REPORT_DB (snd (run test_cases st)) !! fst (do_uuid4 uuid4 st) =
  Some {| run_id := fst (do_uuid4 uuid4 st);
          test_cases := reports_of test_cases (snd (do_uuid4 uuid4 st)) |}.
Proof. rewrite run_unfold. cbn [snd REPORT_DB]. apply lookup_insert_eq. Qed.

(** [handle_test_run], by the outcome of the parser. *)
Lemma handle_unfold (filename : string) (content : list Byte.byte) (st : State) :
  let file_path := os_path_join UPLOADS_DIR filename in
  let w1 := save_upload (world st) file_path content in
  let st2 := {| world := snd (parse_test_file w1 file_path);
                REPORT_DB := REPORT_DB st;
                calls := (calls st ++ [SaveUpload file_path; ParseTestFile file_path])%list |} in
  handle filename content st =
  match fst (parse_test_file w1 file_path) with
  | Raised e =>
      (TemplateResponse "index.html" (CtxError ("Failed to parse file: " +:+ e)), st2)
  | Returned test_cases => run test_cases st2
  end.
Proof.
  unfold handle_test_run, bind, ret, do_save_upload, do_parse_test_file, outside.
  cbn [world REPORT_DB calls fst snd].
  destruct (parse_test_file _ _) as [[test_cases|e] w2]; cbn [fst snd];
    rewrite <- app_assoc; reflexivity.
Qed.

(** [view_report] reads the store and leaves the state alone. *)
Lemma view_report_unfold (id : string) (st : @State World) :
  view_report id st =
  (match REPORT_DB st !! id with
   | Some r => TemplateResponse "report.html" (CtxReport r)
   | None => TemplateResponse "index.html" (CtxError "Report not found!")
   end, st).
Proof.
  unfold view_report, bind, db_get, ret.
  destruct (REPORT_DB st !! id) as [r|]; reflexivity.
Qed.

(** A request either leaves the store as it is or adds the report of one
    finished batch under the run identifier written into it. *)
Lemma serve_store (req : Request) (st : State) :
  let st' := snd (serve save_upload parse_test_file uuid4 generate_initial_script
                        execute_test_case sleep req st) in
  REPORT_DB st' = REPORT_DB st \/
  exists id test_cases st1,
    REPORT_DB st' =
    <[id := {| run_id := id; test_cases := reports_of test_cases st1 |}]> (REPORT_DB st).
Proof.
  destruct req as [|filename content|id]; cbn [serve].
  - left. reflexivity.
  - rewrite handle_unfold. cbn zeta.
    destruct (fst (parse_test_file _ _)) as [test_cases|e].
    + right. rewrite run_unfold. cbn [snd REPORT_DB].
      match goal with
      | |- context [loop (enumerate test_cases) [] (snd (do_uuid4 uuid4 ?s))] =>
          set (st0 := s)
      end.
      exists (fst (do_uuid4 uuid4 st0)), test_cases, (snd (do_uuid4 uuid4 st0)).
      destruct (loop_untouched (enumerate test_cases) [] (snd (do_uuid4 uuid4 st0)))
        as [-> _].
      destruct (uuid4_untouched st0) as [-> _]. reflexivity.
    + left. reflexivity.
  - left. rewrite view_report_unfold. reflexivity.
Qed.

(** A property of the store that holds when the module is loaded and is
    kept by the report of every finished batch holds after any requests. *)
Lemma serve_all_store (I : gmap string RunReport -> Prop) :
  (forall db id test_cases st1,
      I db ->
      I (<[id := {| run_id := id; test_cases := reports_of test_cases st1 |}]> db)) ->
  forall reqs st,
    I (REPORT_DB st) ->
    I (REPORT_DB (serve_all save_upload parse_test_file uuid4 generate_initial_script
                            execute_test_case sleep reqs st)).
Proof.
  intros Hstep reqs. induction reqs as [|req reqs IH]; intros st Hst; cbn [serve_all].
  - exact Hst.
  - apply IH. destruct (serve_store req st) as [->|(id & test_cases & st1 & ->)]; auto.
Qed.

(** ** The batch run *)

(** A property of the reports that [handle_test_run] writes itself and of
    those the executor returns holds of every report of a batch. *)
Lemma loop_Forall (P : TestCaseReport -> Prop) :
  (forall id initial_script, P (generation_failure_report id initial_script)) ->
  (forall w id s d, P (fst (execute_test_case w id s d))) ->
  forall rows st, Forall P (fst (loop rows [] st)).
Proof.
  intros Hgen Hexec rows st.
  pose proof (loop_reports rows st) as H.
  induction H as [|row r rows' rs [st0 Hr] _ IH]; constructor; [|exact IH].
  subst r.
  unfold build_test_report, bind, do_generate_initial_script,
    do_execute_test_case, outside, ret.
  destruct (generate_initial_script (world st0) (snd row)) as [[s|] w1];
    [|apply Hgen].
  destruct (generation_failed (Some s)); [apply Hgen|].
  cbn [world]. specialize (Hexec w1 (test_case_id_of (fst row) (snd row)) s RESULTS_DIR).
  destruct (execute_test_case w1 _ s RESULTS_DIR). exact Hexec.
Qed.

(** C1 (as amended).  The batch skips exactly the rows whose identifier
    field is present with a cell that [str] renders as the empty string: such
    a row leaves the collected reports and the state as they are and the
    loop goes on; every other row, a row without the field included (it
    runs under the name [TestCase_<position>]), adds one report.  So the
    number of reports in the stored RunReport is the number of rows that
    are not skipped. *)
Theorem batch_skips_rows_rendering_empty (batch : list TestCase) (st : State) :
  (fun final_report => length (test_cases final_report)) <$>
    REPORT_DB (snd (run batch st)) !! fst (do_uuid4 uuid4 st) =
    Some (length (List.filter
                    (fun test_case => negb (identifier_renders_empty test_case))
                    batch)) /\
  forall i test_case collected st0,
    body (i, test_case) collected st0 =
    if identifier_renders_empty test_case
    then (collected, st0)
    else ((collected ++ [fst (build (test_case_id_of i test_case) test_case st0)])%list,
          snd (do_sleep sleep 2 (snd (build (test_case_id_of i test_case) test_case st0)))).
Proof.
  split.
  - rewrite run_stores_reports. cbn. f_equal.
    unfold batch_reports. rewrite loop_length. apply kept_rows_length.
  - intros i test_case collected st0. rewrite body_unfold.
    rewrite <- (skipped_iff_renders_empty i test_case).
    destruct (str_truthy (test_case_id_of i test_case)); reflexivity.
Qed.

(** The iteration of a row that is not skipped and whose generation fails. *)
Lemma body_when_generation_fails (i : nat) (test_case : TestCase)
    (collected : list TestCaseReport) (st : State) :
  str_truthy (test_case_id_of i test_case) = true ->
  generation_failed (fst (generate_initial_script (world st) test_case)) = true ->
  body (i, test_case) collected st =
  ((collected ++
    [generation_failure_report (test_case_id_of i test_case)
       (fst (generate_initial_script (world st) test_case))])%list,
   {| world := sleep (snd (generate_initial_script (world st) test_case)) 2;
      REPORT_DB := REPORT_DB st;
      calls := (calls st ++ [GenerateInitialScript test_case; Sleep 2])%list |}).
Proof.
  intros Hid Hfail. rewrite body_unfold, Hid.
  unfold build_test_report, bind, do_generate_initial_script, do_sleep, outside, ret.
  destruct (generate_initial_script (world st) test_case) as [initial_script w1].
  cbn [fst snd] in *.
  destruct initial_script as [s|]; [rewrite Hfail|];
    cbn [fst snd world calls REPORT_DB]; rewrite <- app_assoc; reflexivity.
Qed.

(** C2.  When the generator returns nothing, an empty text or a text with
    the error marker for a row that is not skipped, the iteration appends
    the report [Fail] with 0 retries and a history of the single attempt
    whose error is what the generator returned, and the only outside calls
    of the iteration are the generator and the cool-down: the executor is
    not called. *)
Theorem generation_failure_is_terminal (i : nat) (test_case : TestCase)
    (collected : list TestCaseReport) (st : State) :
  str_truthy (test_case_id_of i test_case) = true ->
  generation_failed (fst (generate_initial_script (world st) test_case)) = true ->
  fst (body (i, test_case) collected st) =
    (collected ++
     [ {| test_case_id := test_case_id_of i test_case;
          status := Fail;
          retries := 0;
          history := [ {| attempt := 1;
                          script := "Failed to generate script from Gemini.";
                          outcome := OutcomeFail;
                          error := fst (generate_initial_script (world st) test_case) |} ] |} ])%list /\
  calls (snd (body (i, test_case) collected st)) =
    (calls st ++ [GenerateInitialScript test_case; Sleep 2])%list /\
  Forall (fun c => is_execute c = false)
         (drop (length (calls st)) (calls (snd (body (i, test_case) collected st)))).
Proof.
  intros Hid Hfail. rewrite (body_when_generation_fails _ _ _ _ Hid Hfail).
  cbn [fst snd calls]. rewrite drop_app_length.
  repeat split; repeat constructor.
Qed.

(** C5.  Dropping the skipped rows beforehand changes nothing, and the
    reports of the stored RunReport pair off in order with the rows that
    are not skipped: the i-th report is the one the loop body builds for
    the i-th such row. *)
Theorem reports_follow_input_order (batch : list TestCase) (st : State) :
  loop (enumerate batch) [] st = loop (kept_rows batch) [] st /\
  exists final_report,
    REPORT_DB (snd (run batch st)) !! fst (do_uuid4 uuid4 st) = Some final_report /\
    Forall2 (report_of_row generate_initial_script execute_test_case)
            (kept_rows batch) (test_cases final_report).
Proof.
  split.
  - apply loop_filter.
  - eexists. split; [apply run_stores_reports|]. apply loop_reports.
Qed.

(** X14.  When the executor names its report after the identifier it is
    handed, the identifiers of the reports are those of the kept rows, in
    order. *)
Lemma report_ids_follow_input_order (test_cases : list TestCase) (st : State) :
  (forall w id s d, test_case_id (fst (execute_test_case w id s d)) = id) ->
  map test_case_id (reports_of test_cases st) =
  map (fun row => test_case_id_of (fst row) (snd row)) (kept_rows test_cases).
Proof.
  intros Hecho.
  pose proof (loop_reports (enumerate test_cases) st) as H.
  fold (kept_rows test_cases) in H. fold (reports_of test_cases st) in H.
  induction H as [|row r rows rs [st0 Hr] _ IH]; [reflexivity|].
  cbn [map]. f_equal; [|exact IH]. subst r.
  unfold build_test_report, bind, do_generate_initial_script,
    do_execute_test_case, outside, ret.
  destruct (generate_initial_script (world st0) (snd row)) as [[s|] w1];
    [|reflexivity].
  destruct (generation_failed (Some s)); [reflexivity|].
  cbn [world]. specialize (Hecho w1 (test_case_id_of (fst row) (snd row)) s RESULTS_DIR).
  destruct (execute_test_case w1 _ s RESULTS_DIR). exact Hecho.
Qed.

(** C6.  From the rows on, the store is the one the batch started with
    after any number of rows of the loop, the finished report is written
    under the run identifier once the loop is left, and in the call log the
    single store write comes after every other call of the batch. *)
Theorem store_written_once_after_the_batch (test_cases : list TestCase) (st : State) :
  let st1 := snd (do_uuid4 uuid4 st) in
  let id := fst (do_uuid4 uuid4 st) in
  let st2 := snd (loop (enumerate test_cases) [] st1) in
  let st3 := snd (run test_cases st) in
  (forall k,
      REPORT_DB (state_after_rows generate_initial_script execute_test_case sleep
                                  k test_cases st1) = REPORT_DB st) /\
  REPORT_DB st3 =
    <[id := {| run_id := id; test_cases := reports_of test_cases st1 |}]> (REPORT_DB st) /\
  exists before,
    calls st2 = (calls st ++ before)%list /\
    calls st3 = (calls st ++ before ++ [StoreReport id])%list /\
    Forall (fun c => is_store c = false) before.
Proof.
  cbn zeta. rewrite run_unfold. cbn [snd REPORT_DB calls].
  pose proof (uuid4_untouched st) as H1.
  set (st1 := snd (do_uuid4 uuid4 st)) in *.
  pose proof (loop_untouched (enumerate test_cases) [] st1) as H2.
  split; [|split].
  - intros k. unfold state_after_rows.
    destruct (loop_untouched (take k (enumerate test_cases)) [] st1) as [-> _].
    apply H1.
  - destruct H2 as [-> _]. destruct H1 as [-> _]. reflexivity.
  - destruct (store_untouched_trans _ _ _ H1 H2) as [_ (before & Hc & Hq)].
    exists before. rewrite Hc, <- app_assoc. auto.
Qed.

(** C7.  Retrieval answers with the report stored under the identifier
    when there is one and with the not-found page when there is none, and
    leaves the state, the store included, as it was. *)
Theorem view_report_finds_or_reports_missing (id : string) (st : @State World) :
  fst (view_report id st) =
    match REPORT_DB st !! id with
    | Some r => TemplateResponse "report.html" (CtxReport r)
    | None => TemplateResponse "index.html" (CtxError "Report not found!")
    end /\
  snd (view_report id st) = st.
Proof. rewrite view_report_unfold. split; reflexivity. Qed.

(** C8.  When the parser raises, the handler answers with the upload page
    carrying the parse error, the store is unchanged, and the only outside
    calls are the upload and the parser: no run identifier is drawn,
    nothing is generated or executed. *)
Theorem parse_failure_is_surfaced (filename : string) (content : list Byte.byte)
    (st : State) (e : string) :
  fst (parse_test_file
         (save_upload (world st) (os_path_join UPLOADS_DIR filename) content)
         (os_path_join UPLOADS_DIR filename)) = Raised e ->
  fst (handle filename content st) =
    TemplateResponse "index.html" (CtxError ("Failed to parse file: " +:+ e)) /\
  REPORT_DB (snd (handle filename content st)) = REPORT_DB st /\
  calls (snd (handle filename content st)) =
    (calls st ++ [SaveUpload (os_path_join UPLOADS_DIR filename);
                  ParseTestFile (os_path_join UPLOADS_DIR filename)])%list.
Proof.
  intros Hparse. rewrite handle_unfold. cbn zeta. rewrite Hparse.
  repeat split.
Qed.

(** C9.  With a generator and an executor whose results do not depend on
    the state of the world, the report built for a test case and the
    reports of a batch are the same from any two states. *)
Theorem deterministic_collaborators_give_equal_reports :
  (forall w w' test_case,
      fst (generate_initial_script w test_case) = fst (generate_initial_script w' test_case)) ->
  (forall w w' id s d,
      fst (execute_test_case w id s d) = fst (execute_test_case w' id s d)) ->
  forall st st' : State,
    (forall id test_case, fst (build id test_case st) = fst (build id test_case st')) /\
    (forall test_cases, reports_of test_cases st = reports_of test_cases st').
Proof.
  intros Hgen Hexec.
  assert (Hbuild : forall (st st' : State) id test_case,
             fst (build id test_case st) = fst (build id test_case st')).
  { intros st st' id test_case.
    unfold build_test_report, bind, do_generate_initial_script,
      do_execute_test_case, outside, ret.
    specialize (Hgen (world st) (world st') test_case).
    destruct (generate_initial_script (world st) test_case) as [o w1].
    destruct (generate_initial_script (world st') test_case) as [o' w1'].
    cbn [fst] in Hgen. subst o'. destruct o as [s|]; [|reflexivity].
    destruct (generation_failed (Some s)); [reflexivity|]. cbn [world].
    specialize (Hexec w1 w1' id s RESULTS_DIR).
    destruct (execute_test_case w1 id s RESULTS_DIR),
             (execute_test_case w1' id s RESULTS_DIR). exact Hexec. }
  intros st st'. split; [apply Hbuild|].
  intros test_cases. unfold batch_reports. generalize (enumerate test_cases).
  intros rows. revert st st'.
  induction rows as [|[i test_case] rows IH]; intros st st'; [reflexivity|].
  rewrite !loop_cons, !body_unfold.
  destruct (str_truthy (test_case_id_of i test_case)); cbn [fst snd].
  - rewrite (loop_collected rows (_ ++ _)%list).
    rewrite (loop_collected rows (_ ++ _)%list (snd (do_sleep sleep 2 (snd (build _ _ st'))))).
    cbn [fst]. f_equal; [f_equal; f_equal; apply Hbuild | apply IH].
  - apply IH.
Qed.

(** C10.  A finished batch stores its report under the run identifier that
    is written into the report; hence, after any requests, every stored
    report sits under its own [run_id], and a report page obtained for an
    identifier shows a report with that [run_id]. *)
Theorem stored_report_is_keyed_by_its_run_id (w : World) (reqs : list Request) :
  let st := serve_all save_upload parse_test_file uuid4 generate_initial_script
                      execute_test_case sleep reqs (initial_state w) in
  (forall test_cases st0,
      (run_id <$> REPORT_DB (snd (run test_cases st0)) !! fst (do_uuid4 uuid4 st0))
      = Some (fst (do_uuid4 uuid4 st0))) /\
  keyed_by_run_id (REPORT_DB st) /\
  forall id name r,
    fst (view_report id st) = TemplateResponse name (CtxReport r) -> run_id r = id.
Proof.
  cbn zeta.
  assert (Hinv : keyed_by_run_id
            (REPORT_DB (serve_all save_upload parse_test_file uuid4
                          generate_initial_script execute_test_case sleep reqs
                          (initial_state w)))).
  { apply serve_all_store.
    - intros db id test_cases st1 Hdb. unfold keyed_by_run_id.
      apply map_Forall_insert_2; [reflexivity|exact Hdb].
    - apply map_Forall_empty. }
  split; [|split].
  - intros test_cases st0. rewrite run_unfold. cbn [snd REPORT_DB].
    rewrite lookup_insert_eq. reflexivity.
  - exact Hinv.
  - intros id name r. rewrite view_report_unfold. cbn [fst].
    destruct (REPORT_DB _ !! id) as [r'|] eqn:Hlook; [|discriminate].
    intros [= _ <-]. exact (Hinv id r' Hlook).
Qed.

End HandlerProperties.

(** ** The retry controller *)

Section RetryControllerProperties.

Context {World : Type}.
Variable MAX_RETRIES : nat.
Variable execute : World -> string -> string -> ExecutionResult * World.
Variable repair : World -> string -> string -> ExecutionResult -> Generated * World.

Local Abbreviation controller := (executing MAX_RETRIES execute repair).

Lemma status_matches_last_snoc (id : string) (st : Status) (n : nat)
    (attempts : list Attempt) (a : Attempt) :
  (st = Pass <-> outcome a = OutcomePass) ->
  status_matches_last {| test_case_id := id; status := st; retries := n;
                         history := (attempts ++ [a])%list |}.
Proof.
  intros H. unfold status_matches_last, last_outcome. cbn [status history].
  rewrite last_snoc. cbn. rewrite H. split; congruence.
Qed.

(** Whatever the executor and the diagnoser do, the controller ends with a
    status that agrees with the last attempt it recorded. *)
Lemma executing_status_matches_last (case_id work_dir : string) (counter : nat)
    (code : string) (attempts : list Attempt) (w : World) :
  status_matches_last (fst (controller case_id work_dir counter code attempts w)).
Proof.
  funelim (controller case_id work_dir counter code attempts w).
  clear Heqcall. destruct (execute w code work_dir) as [result w1].
  destruct (exec_outcome result) eqn:Hout.
  - apply status_matches_last_snoc. cbn. split; reflexivity.
  - destruct (le_dec (counter + 1) MAX_RETRIES) as [Hle|Hgt].
    + destruct (repair w1 case_id code result) as [[code'|message] w2] eqn:Hrep.
      * specialize (H result w1 Hle (Script code') w2 code').
        rewrite Hout in H. exact H.
      * cbn [fst]. apply status_matches_last_snoc. cbn. split; discriminate.
    + cbn [fst]. apply status_matches_last_snoc. cbn. split; discriminate.
Qed.

(** The controller records at least one attempt and stays within the
    retry budget. *)
Lemma executing_attempts_within (case_id work_dir : string) (counter : nat)
    (code : string) (attempts : list Attempt) (w : World) :
  length attempts = counter ->
  counter <= MAX_RETRIES ->
  attempts_within MAX_RETRIES
    (fst (controller case_id work_dir counter code attempts w)).
Proof.
  funelim (controller case_id work_dir counter code attempts w).
  intros Hlen Hle.
  clear Heqcall. destruct (execute w code work_dir) as [result w1].
  destruct (exec_outcome result) eqn:Hout.
  - unfold attempts_within. cbn. rewrite length_app. cbn. lia.
  - destruct (le_dec (counter + 1) MAX_RETRIES) as [Hle'|Hgt].
    + destruct (repair w1 case_id code result) as [[code'|message] w2] eqn:Hrep.
      * specialize (H result w1 Hle' (Script code') w2 code').
        rewrite Hout in H. apply H; [rewrite length_app; cbn; lia | exact Hle'].
      * unfold attempts_within. cbn. rewrite !length_app. cbn. lia.
    + unfold attempts_within. cbn. rewrite length_app. cbn. lia.
Qed.

(** A controller over an executor and a diagnoser that do not look at the
    world does not look at it either. *)
Lemma executing_deterministic (case_id work_dir : string) (counter : nat)
    (code : string) (attempts : list Attempt) (w : World) :
  (forall w w' s d, fst (execute w s d) = fst (execute w' s d)) ->
  (forall w w' id s r, fst (repair w id s r) = fst (repair w' id s r)) ->
  forall w',
    fst (controller case_id work_dir counter code attempts w) =
    fst (controller case_id work_dir counter code attempts w').
Proof.
  funelim (controller case_id work_dir counter code attempts w).
  intros Hexec Hrep w'. clear Heqcall.
  rewrite (executing_equation_1 _ _ _ _ _ _ _ _ w').
  pose proof (Hexec w w' code work_dir) as He.
  destruct (execute w code work_dir) as [result w1].
  destruct (execute w' code work_dir) as [result' w1'].
  cbn [fst] in He. subst result'. cbn zeta.
  destruct (exec_outcome result) eqn:Hout; [reflexivity|].
  destruct (le_dec (counter + 1) MAX_RETRIES) as [Hle|Hgt]; [|reflexivity].
  pose proof (Hrep w1 w1' case_id code result) as Hr.
  destruct (repair w1 case_id code result) as [repaired w2].
  destruct (repair w1' case_id code result) as [repaired' w2'].
  cbn [fst] in Hr. subst repaired'.
  destruct repaired as [code'|message]; [|reflexivity].
  specialize (H result w1 Hle (Script code') w2 code').
  rewrite Hout in H. apply H; assumption.
Qed.

Variable save_upload : World -> string -> list Byte.byte -> World.
Variable parse_test_file : World -> string -> Raises (list TestCase) * World.
Variable uuid4 : World -> string * World.
Variable generate_initial_script : World -> TestCase -> option string * World.
Variable sleep : World -> nat -> World.

Local Abbreviation retrying := (spec_execute_test_case MAX_RETRIES execute repair).

Lemma generation_failure_report_status (id : string) (initial_script : option string) :
  status_matches_last (generation_failure_report id initial_script).
Proof. unfold status_matches_last. cbn. split; discriminate. Qed.

Lemma generation_failure_report_attempts (id : string) (initial_script : option string) :
  attempts_within MAX_RETRIES (generation_failure_report id initial_script).
Proof. unfold attempts_within. cbn. lia. Qed.

Lemma all_stored_reports_served (P : TestCaseReport -> Prop) (w : World)
    (reqs : list Request) :
  (forall test_cases st,
      Forall P (batch_reports generate_initial_script retrying sleep test_cases st)) ->
  all_stored_reports P
    (REPORT_DB (serve_all save_upload parse_test_file uuid4 generate_initial_script
                          retrying sleep reqs (initial_state w))).
Proof.
  intros HP. apply (serve_all_store _ _ _ _ _ _ (all_stored_reports P)).
  - intros db id test_cases st1 Hdb. apply map_Forall_insert_2; [apply HP|exact Hdb].
  - apply map_Forall_empty.
Qed.

(** C3.  With the retry controller in the place of the executor, every
    report of a batch, and so every report of every run in the store after
    any requests, has status [Pass] exactly when the last attempt of its
    history passed. *)
Theorem status_is_pass_iff_last_attempt_passed (test_cases : list TestCase)
    (st : State) (w : World) (reqs : list Request) :
  Forall status_matches_last
         (batch_reports generate_initial_script retrying sleep test_cases st) /\
  all_stored_reports status_matches_last
    (REPORT_DB (serve_all save_upload parse_test_file uuid4 generate_initial_script
                          retrying sleep reqs (initial_state w))).
Proof.
  assert (H : forall test_cases st,
             Forall status_matches_last
               (batch_reports generate_initial_script retrying sleep test_cases st)).
  { intros cases st0. apply loop_Forall.
    - apply generation_failure_report_status.
    - intros w0 id s d. apply executing_status_matches_last. }
  split; [apply H|apply all_stored_reports_served, H].
Qed.

(** C4.  With the retry controller in the place of the executor, every
    report of a batch, and so every report of every run in the store after
    any requests, has between 1 and [MAX_RETRIES + 1] attempts; and the
    report of a row whose generation fails has exactly one, whatever
    [MAX_RETRIES] is. *)
Theorem attempts_between_one_and_budget (test_cases : list TestCase)
    (st : State) (w : World) (reqs : list Request) :
  Forall (attempts_within MAX_RETRIES)
         (batch_reports generate_initial_script retrying sleep test_cases st) /\
  all_stored_reports (attempts_within MAX_RETRIES)
    (REPORT_DB (serve_all save_upload parse_test_file uuid4 generate_initial_script
                          retrying sleep reqs (initial_state w))) /\
  forall i test_case collected st0,
    str_truthy (test_case_id_of i test_case) = true ->
    generation_failed (fst (generate_initial_script (world st0) test_case)) = true ->
    (fun r => length (history r)) <$>
      last (fst (loop_body generate_initial_script retrying sleep
                           (i, test_case) collected st0)) = Some 1.
Proof.
  assert (H : forall test_cases st,
             Forall (attempts_within MAX_RETRIES)
               (batch_reports generate_initial_script retrying sleep test_cases st)).
  { intros cases st0. apply loop_Forall.
    - apply generation_failure_report_attempts.
    - intros w0 id s d. apply executing_attempts_within; [reflexivity|lia]. }
  split; [apply H|split; [apply all_stored_reports_served, H|]].
  intros i test_case collected st0 Hid Hfail.
  rewrite (body_when_generation_fails _ _ _ _ _ _ _ Hid Hfail).
  cbn [fst]. rewrite last_snoc. reflexivity.
Qed.

End RetryControllerProperties.

(** ** The handlers on concrete batches *)

(** Scenario A: two retries allowed, the first execution fails, the
    repaired script passes. *)
Example scenario_first_fails_then_passes :
  fst (spec_execute_test_case 2 Mock.execute Mock.repair 0 "7" "typo" RESULTS_DIR) =
  {| test_case_id := "7"; status := Pass; retries := 1;
     history := [ {| attempt := 1; script := "typo"; outcome := OutcomeFail;
                     error := Some "NameError" |};
                  {| attempt := 2; script := "ok"; outcome := OutcomePass;
                     error := Some "" |} ] |}.
Proof. reflexivity. Qed.

(** Scenario B: one retry allowed, every execution fails. *)
Example scenario_retries_exhausted :
  fst (spec_execute_test_case 1 Mock.execute Mock.repair 0 "s" "stuck" RESULTS_DIR) =
  {| test_case_id := "s"; status := Fail; retries := 1;
     history := [ {| attempt := 1; script := "stuck"; outcome := OutcomeFail;
                     error := Some "NameError" |};
                  {| attempt := 2; script := "stuck"; outcome := OutcomeFail;
                     error := Some "NameError" |} ] |}.
Proof. reflexivity. Qed.

(** A batch of four rows, one of them blank: three reports, in input order. *)
Example mock_batch_ids :
  map test_case_id
      (batch_reports Mock.generate_initial_script Mock.execute_test_case Mock.sleep
         [Mock.row_login; Mock.row_blank; Mock.row_quota; Mock.row_unnamed]
         (initial_state 0)) =
  ["login"; "quota"; "TestCase_4"].
Proof. vm_compute. reflexivity. Qed.

(** The same rows with the retry controller as the executor, one retry
    allowed: the typo is repaired, the quota row never reaches it. *)
Example mock_batch_retrying :
  let st := snd (Mock.handle_retrying 1 (Returned [Mock.row_typo; Mock.row_quota])
                                      "cases.csv" [] (initial_state 0)) in
  map (fun r => (test_case_id r, status r, length (history r)))
      <$> (test_cases <$> REPORT_DB st !! "run-2") =
  Some [("7", Pass, 2); ("quota", Fail, 1)].
Proof. vm_compute. reflexivity. Qed.

(** C1, as the design document words it, fails on a row without the
    identifier field: the row is not skipped, it is run as [TestCase_1]. *)
Lemma missing_identifier_is_not_skipped :
  let st := snd (Mock.handle (Returned [Mock.row_unnamed]) "cases.csv" []
                             (initial_state 0)) in
  (fun final_report => length (test_cases final_report)) <$> REPORT_DB st !! "run-2"
    = Some 1 /\
  length (List.filter (fun test_case => negb (identifier_empty_or_missing test_case))
            [Mock.row_unnamed]) = 0 /\
  (fun final_report => length (test_cases final_report)) <$> REPORT_DB st !! "run-2"
    <> Some (length (List.filter
                       (fun test_case => negb (identifier_empty_or_missing test_case))
                       [Mock.row_unnamed])).
Proof. vm_compute. repeat split. discriminate. Qed.

Lemma generation_failure_is_terminal_witness :
  str_truthy (test_case_id_of 0 Mock.row_quota) = true /\
  generation_failed (fst (Mock.generate_initial_script 0 Mock.row_quota)) = true /\
  calls (snd (loop_body Mock.generate_initial_script Mock.execute_test_case Mock.sleep
                        (0, Mock.row_quota) [] (initial_state 0))) =
  [GenerateInitialScript Mock.row_quota; Sleep 2].
Proof.
  split; [reflexivity|]. split; [reflexivity|].
  exact (proj1 (proj2 (generation_failure_is_terminal
                         Mock.generate_initial_script Mock.execute_test_case Mock.sleep
                         0 Mock.row_quota [] (initial_state 0) eq_refl eq_refl))).
Defined.

Lemma parse_failure_is_surfaced_witness :
  fst (Mock.handle (Raised "not a table") "cases.csv" [] (initial_state 0)) =
  TemplateResponse "index.html" (CtxError "Failed to parse file: not a table").
Proof.
  exact (proj1 (parse_failure_is_surfaced
                  Mock.save_upload (Mock.parse_test_file (Raised "not a table"))
                  Mock.uuid4 Mock.generate_initial_script Mock.execute_test_case
                  Mock.sleep "cases.csv" [] (initial_state 0) "not a table" eq_refl)).
Defined.

(** The same batch run a second time, from the state the first run left. *)
Lemma deterministic_collaborators_give_equal_reports_witness :
  let rows := [Mock.row_login; Mock.row_quota] in
  let st := initial_state 0 in
  let st' := snd (Mock.handle (Returned rows) "cases.csv" [] st) in
  batch_reports Mock.generate_initial_script Mock.execute_test_case Mock.sleep rows st =
  batch_reports Mock.generate_initial_script Mock.execute_test_case Mock.sleep rows st'.
Proof.
  intros rows st st'.
  apply (deterministic_collaborators_give_equal_reports
           Mock.generate_initial_script Mock.execute_test_case Mock.sleep).
  - intros w w' test_case. reflexivity.
  - intros w w' id s d. reflexivity.
Defined.

Lemma stored_report_is_keyed_by_its_run_id_witness :
  let st := serve_all Mock.save_upload (Mock.parse_test_file (Returned [Mock.row_login]))
                      Mock.uuid4 Mock.generate_initial_script Mock.execute_test_case
                      Mock.sleep [PostRunTests "cases.csv" []] (initial_state 0) in
  exists r,
    fst (view_report "run-2" st) = TemplateResponse "report.html" (CtxReport r) /\
    run_id r = "run-2".
Proof.
  intros st.
  destruct (REPORT_DB st !! "run-2") as [r|] eqn:Hlook; [|discriminate Hlook].
  exists r.
  assert (Hview : fst (view_report "run-2" st) = TemplateResponse "report.html" (CtxReport r)).
  { unfold view_report, bind, db_get, ret. rewrite Hlook. reflexivity. }
  split; [exact Hview|].
  exact (proj2 (proj2 (stored_report_is_keyed_by_its_run_id
                         Mock.save_upload (Mock.parse_test_file (Returned [Mock.row_login]))
                         Mock.uuid4 Mock.generate_initial_script Mock.execute_test_case
                         Mock.sleep 0 [PostRunTests "cases.csv" []]))
               "run-2" "report.html" r Hview).
Defined.

Lemma attempts_between_one_and_budget_witness :
  (fun r => length (history r)) <$>
    last (fst (loop_body Mock.generate_initial_script
                         (spec_execute_test_case 3 Mock.execute Mock.repair) Mock.sleep
                         (0, Mock.row_quota) [] (initial_state 0))) = Some 1.
Proof.
  exact (proj2 (proj2 (attempts_between_one_and_budget
                         3 Mock.execute Mock.repair Mock.save_upload
                         (Mock.parse_test_file (Returned [])) Mock.uuid4
                         Mock.generate_initial_script Mock.sleep
                         [] (initial_state 0) 0 []))
               0 Mock.row_quota [] (initial_state 0) eq_refl eq_refl).
Defined.

(** * Further properties of the handlers *)

(** ** Strings and identifiers *)

Lemma append_cons (c : Ascii.ascii) (s t : string) : String c s +:+ t = String c (s +:+ t).
Proof. reflexivity. Qed.

Lemma prefix_iff (a b : string) :
  String.prefix a b = true <-> exists post, b = a +:+ post.
Proof.
  revert b. induction a as [|c a IH]; intros b.
  - split; [exists b; reflexivity|]. intros _. destruct b; reflexivity.
  - destruct b as [|d b]; cbn [String.prefix].
    + split; [discriminate|]. intros [post H]. rewrite append_cons in H. discriminate.
    + destruct (Ascii.ascii_dec c d) as [->|Hne].
      * rewrite IH. split; intros [post H]; exists post.
        -- rewrite append_cons, H. reflexivity.
        -- rewrite append_cons in H. congruence.
      * split; [discriminate|]. intros [post H]. rewrite append_cons in H. congruence.
Qed.

(** [str_in] is the substring test. *)
Lemma str_in_iff (sub s : string) :
  str_in sub s = true <-> exists pre post, s = pre +:+ sub +:+ post.
Proof.
  induction s as [|c s IH]; cbn [str_in].
  - rewrite orb_false_r, prefix_iff. split.
    + intros [post H]. exists "", post. exact H.
    + intros (pre & post & H). destruct pre as [|d pre].
      * exists post. exact H.
      * rewrite append_cons in H. discriminate.
  - rewrite orb_true_iff, prefix_iff, IH. split.
    + intros [[post H]|(pre & post & H)].
      * exists "", post. exact H.
      * exists (String c pre), post. rewrite append_cons, H. reflexivity.
    + intros (pre & post & H). destruct pre as [|d pre].
      * left. exists post. exact H.
      * right. rewrite append_cons in H. exists pre, post. congruence.
Qed.

(** X1.  The generation test of line 67 fails a result exactly when it is
    [None], the empty text, or a text with the marker anywhere in it. *)
Theorem generation_failed_iff (initial_script : option string) :
  generation_failed initial_script = true <->
  initial_script = None \/
  initial_script = Some "" \/
  exists pre post, initial_script = Some (pre +:+ ERROR_MARKER +:+ post).
Proof.
  destruct initial_script as [s|]; cbn [generation_failed].
  - rewrite orb_true_iff, str_in_iff. split.
    + intros [H|(pre & post & ->)].
      * right. left. destruct s; [reflexivity|discriminate].
      * right. right. exists pre, post. reflexivity.
    + intros [H|[H|(pre & post & H)]].
      * discriminate.
      * left. injection H as ->. reflexivity.
      * right. exists pre, post. congruence.
  - split; auto.
Qed.

Lemma pretty_N_go_nonempty (x : N) (s : string) : s <> "" -> pretty_N_go x s <> "".
Proof.
  revert s. induction (N.lt_wf_0 x) as [x _ IH]; intros s Hs.
  assert (x = 0 \/ 0 < x)%N as [->|Hx] by lia.
  - rewrite pretty_N_go_0. exact Hs.
  - rewrite pretty_N_go_step by exact Hx. apply IH.
    + apply N.div_lt; [exact Hx|reflexivity].
    + discriminate.
Qed.

Lemma pretty_N_nonempty (x : N) : str_truthy (pretty x) = true.
Proof.
  unfold pretty, pretty_N. destruct (decide (x = 0%N)) as [->|Hx]; [reflexivity|].
  rewrite pretty_N_go_step by lia.
  pose proof (pretty_N_go_nonempty (x `div` 10)
                (String (pretty_N_char (x `mod` 10)) "")) as H.
  destruct (pretty_N_go _ _); [exfalso; apply H; [discriminate|reflexivity]|reflexivity].
Qed.

(** [str] of an integer is never empty. *)
Lemma py_str_int_nonempty (z : Z) : str_truthy (py_str (PyInt z)) = true.
Proof.
  cbn [py_str]. unfold pretty, pretty_Z. destruct z as [|p|p].
  - reflexivity.
  - apply pretty_N_nonempty.
  - reflexivity.
Qed.

(** X2.  A row whose identifier cell is [None], a boolean or an integer is
    never skipped: [str] renders it as a non-empty text ([None] as
    ["None"]), and that text is the identifier the row runs under. *)
Theorem non_text_identifier_is_never_skipped (i : nat) (test_case : TestCase)
    (v : PyVal) :
  test_case !! ID_FIELD = Some v ->
  (forall s, v <> PyStr s) ->
  (forall s, v <> PyFloat s) ->
  identifier_renders_empty test_case = false /\
  str_truthy (test_case_id_of i test_case) = true /\
  test_case_id_of i test_case = py_str v.
Proof.
  intros Hv Hstr Hfloat.
  assert (Hne : str_truthy (py_str v) = true).
  { destruct v as [|[|]|z|r|s].
    - reflexivity.
    - reflexivity.
    - reflexivity.
    - apply py_str_int_nonempty.
    - destruct (Hfloat r). reflexivity.
    - destruct (Hstr s). reflexivity. }
  unfold identifier_renders_empty, test_case_id_of. rewrite Hv. cbn [default].
  rewrite Hne. auto.
Qed.

(** X3.  Rows without the identifier field get different default names at
    different positions, and the name of position [i] is [TestCase_]
    followed by [i + 1] in decimal. *)
Theorem default_identifiers_are_distinct (i j : nat) (row_i row_j : TestCase) :
  row_i !! ID_FIELD = None ->
  row_j !! ID_FIELD = None ->
  i <> j ->
  test_case_id_of i row_i = "TestCase_" +:+ pretty (i + 1) /\
  test_case_id_of i row_i <> test_case_id_of j row_j.
Proof.
  intros Hi Hj Hne. unfold test_case_id_of. rewrite Hi, Hj. cbn [default py_str].
  split; [reflexivity|]. intros H.
  apply (inj (String.app "TestCase_")) in H.
  apply (inj pretty) in H. lia.
Qed.

(** X4.  The position a kept row carries is its position in the uploaded
    file, skipped rows counted: row [i] of the file is that row. *)
Theorem kept_rows_carry_input_positions (batch : list TestCase) :
  Forall (fun row => batch !! fst row = Some (snd row)) (kept_rows batch).
Proof.
  unfold kept_rows, enumerate.
  assert (H : forall start (l : list TestCase),
             Forall (fun row => start <= fst row /\ l !! (fst row - start) = Some (snd row))
                    (enumerate_from start l)).
  { intros start l. revert start. induction l as [|x l IH]; intros start; cbn.
    - constructor.
    - constructor.
      + cbn. rewrite Nat.sub_diag. auto.
      + eapply Forall_impl; [apply IH|]. intros [k y] [Hle Hk]. cbn in *.
        split; [lia|]. replace (k - start) with (S (k - S start)) by lia. exact Hk. }
  apply List.Forall_forall. intros row Hin.
  apply List.filter_In in Hin as [Hin _].
  pose proof (H 0 batch) as H0. rewrite List.Forall_forall in H0.
  destruct (H0 row Hin) as [_ Hrow]. rewrite Nat.sub_0_r in Hrow. exact Hrow.
Qed.


(** ** The call log of a batch *)

Section HandlerCalls.

Context {World : Type}.
Variable save_upload : World -> string -> list Byte.byte -> World.
Variable parse_test_file : World -> string -> Raises (list TestCase) * World.
Variable uuid4 : World -> string * World.
Variable generate_initial_script : World -> TestCase -> option string * World.
Variable execute_test_case :
  World -> string -> string -> string -> TestCaseReport * World.
Variable sleep : World -> nat -> World.

Local Abbreviation build := (build_test_report generate_initial_script execute_test_case).
Local Abbreviation body := (loop_body generate_initial_script execute_test_case sleep).
Local Abbreviation loop := (for_each generate_initial_script execute_test_case sleep).
Local Abbreviation reports_of := (batch_reports generate_initial_script execute_test_case sleep).
Local Abbreviation run := (run_tests uuid4 generate_initial_script execute_test_case sleep).
Local Abbreviation handle :=
  (handle_test_run save_upload parse_test_file uuid4 generate_initial_script
                   execute_test_case sleep).
Local Abbreviation kept :=
  (List.filter (fun row : nat * TestCase =>
                  str_truthy (test_case_id_of (fst row) (snd row)))).

(** The calls of one iteration. *)
Lemma body_calls (i : nat) (test_case : TestCase) (collected : list TestCaseReport)
    (st : State) :
  calls (snd (body (i, test_case) collected st)) =
  (calls st ++
   if str_truthy (test_case_id_of i test_case)
   then GenerateInitialScript test_case ::
        match fst (generate_initial_script (world st) test_case) with
        | Some s =>
            if generation_failed (Some s) then []
            else [ExecuteTestCase (test_case_id_of i test_case) s RESULTS_DIR]
        | None => []
        end ++ [Sleep 2]
   else [])%list.
Proof.
  rewrite body_unfold.
  destruct (str_truthy (test_case_id_of i test_case)); cbn [snd];
    [|rewrite app_nil_r; reflexivity].
  unfold build_test_report, bind, do_generate_initial_script,
    do_execute_test_case, do_sleep, outside, ret.
  destruct (generate_initial_script (world st) test_case) as [[s|] w1]; cbn [fst].
  - destruct (generation_failed (Some s)); cbn [world calls snd].
    + rewrite <- app_assoc. reflexivity.
    + destruct (execute_test_case w1 _ s RESULTS_DIR) as [r w2]. cbn [world calls snd].
      rewrite <- !app_assoc. reflexivity.
  - cbn [world calls snd]. rewrite <- app_assoc. reflexivity.
Qed.

(** The calls of the loop, seen through the generator, the executor and
    the cool-down. *)
Lemma loop_calls (rows : list (nat * TestCase)) (collected : list TestCaseReport)
    (st : State) :
  exists cs,
    calls (snd (loop rows collected st)) = (calls st ++ cs)%list /\
    List.filter is_generate cs =
      map (fun row => GenerateInitialScript (snd row)) (kept rows) /\
    List.filter is_sleep cs = replicate (length (kept rows)) (Sleep 2) /\
    Forall executor_call_ok cs /\
    length (List.filter is_execute cs) <= length (kept rows).
Proof.
  revert collected st. induction rows as [|[i test_case] rows IH]; intros collected st.
  - exists []. cbn. rewrite app_nil_r. repeat split; auto.
  - rewrite loop_cons.
    destruct (IH (fst (body (i, test_case) collected st))
                 (snd (body (i, test_case) collected st)))
      as (cs & Hcs & Hgen & Hsleep & Hok & Hexec).
    rewrite Hcs, body_calls. cbn [List.filter fst snd].
    destruct (str_truthy (test_case_id_of i test_case)) eqn:Hid.
    + eexists. split; [rewrite <- app_assoc; reflexivity|].
      destruct (generate_initial_script (world st) test_case) as [[s|] w1]; cbn [fst].
      * destruct (generation_failed (Some s)) eqn:Hfail; cbn;
          rewrite Hgen, Hsleep; repeat split; auto; try lia.
        -- repeat (constructor; [exact I|]). exact Hok.
        -- constructor; [exact I|]. constructor; [cbn; auto|].
           constructor; [exact I|exact Hok].
      * cbn. rewrite Hgen, Hsleep. repeat split; auto.
        repeat (constructor; [exact I|]). exact Hok.
    + exists cs. rewrite app_nil_r. auto.
Qed.


(** X6.  In a batch the generator is called once for every row that is not
    skipped, with that row, in the order of the file, and for no other. *)
Theorem generator_called_per_kept_row_in_order (batch : list TestCase) (st : State) :
  exists cs,
    calls (snd (loop (enumerate batch) [] st)) = (calls st ++ cs)%list /\
    List.filter is_generate cs =
      map (fun row => GenerateInitialScript (snd row)) (kept_rows batch).
Proof.
  destruct (loop_calls (enumerate batch) [] st) as (cs & Hcs & Hgen & _).
  exists cs. auto.
Qed.

(** X7.  The batch cools down for 2 seconds once after every report it
    collects, the last one included, and never for a skipped row. *)
Theorem cooldown_after_every_report (batch : list TestCase) (st : State) :
  exists cs,
    calls (snd (loop (enumerate batch) [] st)) = (calls st ++ cs)%list /\
    List.filter is_sleep cs = replicate (length (reports_of batch st)) (Sleep 2).
Proof.
  destruct (loop_calls (enumerate batch) [] st) as (cs & Hcs & _ & Hsleep & _).
  exists cs. split; [exact Hcs|].
  unfold batch_reports. rewrite loop_length. exact Hsleep.
Qed.

(** X8.  Every executor call of a batch is for a non-empty identifier, with
    a script that is neither empty nor marked as a generation error, under
    the results directory; there is at most one per report. *)
Theorem executor_only_gets_generated_scripts (batch : list TestCase) (st : State) :
  exists cs,
    calls (snd (loop (enumerate batch) [] st)) = (calls st ++ cs)%list /\
    Forall executor_call_ok cs /\
    length (List.filter is_execute cs) <= length (reports_of batch st).
Proof.
  destruct (loop_calls (enumerate batch) [] st) as (cs & Hcs & _ & _ & Hok & Hexec).
  exists cs. split; [exact Hcs|]. split; [exact Hok|].
  unfold batch_reports. rewrite loop_length. exact Hexec.
Qed.

(** X9.  When generation succeeds for a row that is not skipped, the
    executor is called once, with the row's identifier, the generated
    script and the results directory; its report is appended as it is, and
    the cool-down follows. *)
Theorem generation_success_runs_executor (i : nat) (test_case : TestCase)
    (collected : list TestCaseReport) (st : State) (s : string) :
  str_truthy (test_case_id_of i test_case) = true ->
  fst (generate_initial_script (world st) test_case) = Some s ->
  generation_failed (Some s) = false ->
  fst (body (i, test_case) collected st) =
    (collected ++
     [fst (execute_test_case (snd (generate_initial_script (world st) test_case))
                             (test_case_id_of i test_case) s RESULTS_DIR)])%list /\
  calls (snd (body (i, test_case) collected st)) =
    (calls st ++ [GenerateInitialScript test_case;
                  ExecuteTestCase (test_case_id_of i test_case) s RESULTS_DIR;
                  Sleep 2])%list.
Proof.
  intros Hid Hgen Hok. split.
  - rewrite body_unfold, Hid. cbn [fst].
    unfold build_test_report, bind, do_generate_initial_script,
      do_execute_test_case, outside, ret.
    destruct (generate_initial_script (world st) test_case) as [o w1].
    cbn [fst snd] in *. subst o. rewrite Hok. cbn [world].
    destruct (execute_test_case w1 _ s RESULTS_DIR). reflexivity.
  - rewrite body_calls, Hid, Hgen, Hok. reflexivity.
Qed.

(** ** The store across requests *)

(** X10.  After an upload that parses, the redirect names the run under
    which the report was stored: viewing that run shows the report of this
    batch, with one entry per row that was not skipped. *)
Theorem upload_then_view (filename : string) (content : list Byte.byte)
    (st : State) (batch : list TestCase) :
  fst (parse_test_file
         (save_upload (world st) (os_path_join UPLOADS_DIR filename) content)
         (os_path_join UPLOADS_DIR filename)) = Returned batch ->
  exists id final_report,
    fst (handle filename content st) = RedirectResponse ("/report/" +:+ id) 303 /\
    fst (view_report id (snd (handle filename content st))) =
      TemplateResponse "report.html" (CtxReport final_report) /\
    run_id final_report = id /\
    length (test_cases final_report) = length (kept_rows batch).
Proof.
  intros Hparse. rewrite handle_unfold. cbn zeta. rewrite Hparse, run_unfold.
  cbn zeta. eexists. eexists. split; [reflexivity|].
  rewrite view_report_unfold. cbn [fst snd REPORT_DB].
  rewrite lookup_insert_eq. split; [reflexivity|]. split; [reflexivity|].
  cbn [test_cases]. unfold batch_reports. apply loop_length.
Qed.

(** X11.  No request removes a run from the store: an identifier that has a
    report keeps having one through any further requests. *)
Theorem stored_runs_are_never_removed (reqs : list Request) (st : State)
    (id : string) :
  is_Some (REPORT_DB st !! id) ->
  is_Some (REPORT_DB (serve_all save_upload parse_test_file uuid4
                        generate_initial_script execute_test_case sleep reqs st)
             !! id).
Proof.
  revert st. induction reqs as [|req reqs IH]; intros st Hst; cbn [serve_all].
  - exact Hst.
  - apply IH.
    destruct (serve_store save_upload parse_test_file uuid4 generate_initial_script
                execute_test_case sleep req st)
      as [->|(id' & test_cases & st1 & ->)]; [exact Hst|].
    rewrite lookup_insert_is_Some. destruct (decide (id' = id)); auto.
Qed.

(** X12.  A batch touches one entry of the store, the one of the run
    identifier it drew: every other run is as it was, and the store grows
    by at most one run. *)
Theorem batch_leaves_other_runs_alone (batch : list TestCase) (st : State)
    (id : string) :
  id <> fst (do_uuid4 uuid4 st) ->
  REPORT_DB (snd (run batch st)) !! id = REPORT_DB st !! id /\
  size (REPORT_DB (snd (run batch st))) <= S (size (REPORT_DB st)).
Proof.
  intros Hne. rewrite run_unfold. cbn [snd REPORT_DB].
  destruct (loop_untouched generate_initial_script execute_test_case sleep
              (enumerate batch) [] (snd (do_uuid4 uuid4 st))) as [-> _].
  destruct (uuid4_untouched uuid4 st) as [-> _].
  split.
  - apply lookup_insert_ne. congruence.
  - destruct (REPORT_DB st !! fst (do_uuid4 uuid4 st)) as [r|] eqn:Hlook.
    + rewrite map_size_insert_Some by eauto. lia.
    + rewrite map_size_insert_None by exact Hlook. lia.
Qed.

Lemma kept_of_skipped_rows (batch : list TestCase) (start : nat) :
  Forall (fun test_case => identifier_renders_empty test_case = true) batch ->
  kept (enumerate_from start batch) = [].
Proof.
  intros H. revert start. induction H as [|test_case batch Hskip _ IH]; intros start.
  - reflexivity.
  - cbn [enumerate_from List.filter fst snd].
    rewrite <- (skipped_iff_renders_empty start test_case) in Hskip.
    apply negb_true_iff in Hskip. rewrite Hskip. apply IH.
Qed.

(** X13.  A file without rows, or whose rows are all skipped, still makes a
    run: an identifier is drawn, a report without test cases is stored
    under it and the client is redirected to it; the generator, the
    executor and the cool-down are not called. *)
Theorem batch_of_skipped_rows (batch : list TestCase) (st : State) :
  Forall (fun test_case => identifier_renders_empty test_case = true) batch ->
  run batch st =
  (RedirectResponse ("/report/" +:+ fst (uuid4 (world st))) 303,
   {| world := snd (uuid4 (world st));
      REPORT_DB := <[fst (uuid4 (world st)) :=
                       {| run_id := fst (uuid4 (world st)); test_cases := [] |}]>
                     (REPORT_DB st);
      calls := (calls st ++ [Uuid4; StoreReport (fst (uuid4 (world st)))])%list |}).
Proof.
  intros Hskip. rewrite run_unfold. cbn zeta. unfold batch_reports.
  unfold enumerate.
  rewrite (loop_filter generate_initial_script execute_test_case sleep
             (enumerate_from 0 batch)).
  rewrite (kept_of_skipped_rows _ _ Hskip).
  cbn [for_each]. unfold ret, do_uuid4, outside.
  destruct (uuid4 (world st)) as [id w1]. cbn [fst snd world REPORT_DB calls].
  rewrite <- app_assoc. reflexivity.
Qed.

End HandlerCalls.

(** ** The further properties on concrete batches *)

Lemma non_text_identifier_is_never_skipped_witness :
  Mock.row_none !! ID_FIELD = Some PyNone /\
  test_case_id_of 0 Mock.row_none = "None".
Proof.
  split; [reflexivity|].
  refine (proj2 (proj2 (non_text_identifier_is_never_skipped
                          0 Mock.row_none PyNone eq_refl _ _)));
    intros s; discriminate.
Defined.

Lemma default_identifiers_are_distinct_witness :
  test_case_id_of 0 Mock.row_unnamed <> test_case_id_of 3 Mock.row_unnamed.
Proof.
  refine (proj2 (default_identifiers_are_distinct
                   0 3 Mock.row_unnamed Mock.row_unnamed eq_refl eq_refl _)).
  lia.
Defined.

Lemma generation_success_runs_executor_witness :
  calls (snd (loop_body Mock.generate_initial_script Mock.execute_test_case Mock.sleep
                        (0, Mock.row_login) [] (initial_state 0))) =
  [GenerateInitialScript Mock.row_login;
   ExecuteTestCase "login" "ok" "test_results"; Sleep 2].
Proof.
  exact (proj2 (generation_success_runs_executor
                  Mock.generate_initial_script Mock.execute_test_case Mock.sleep
                  0 Mock.row_login [] (initial_state 0) "ok"
                  eq_refl eq_refl eq_refl)).
Defined.

Lemma upload_then_view_witness :
  exists id final_report,
    fst (Mock.handle (Returned [Mock.row_login; Mock.row_blank]) "cases.csv" []
                     (initial_state 0)) =
      RedirectResponse ("/report/" +:+ id) 303 /\
    fst (view_report id
           (snd (Mock.handle (Returned [Mock.row_login; Mock.row_blank]) "cases.csv" []
                             (initial_state 0)))) =
      TemplateResponse "report.html" (CtxReport final_report) /\
    run_id final_report = id /\
    length (test_cases final_report) = length (kept_rows [Mock.row_login; Mock.row_blank]).
Proof.
  exact (upload_then_view
           Mock.save_upload
           (Mock.parse_test_file (Returned [Mock.row_login; Mock.row_blank]))
           Mock.uuid4 Mock.generate_initial_script Mock.execute_test_case Mock.sleep
           "cases.csv" [] (initial_state 0) [Mock.row_login; Mock.row_blank] eq_refl).
Defined.

Lemma stored_runs_are_never_removed_witness :
  let st := snd (Mock.handle (Returned [Mock.row_login]) "a.csv" [] (initial_state 0)) in
  is_Some (REPORT_DB st !! "run-2") /\
  is_Some (REPORT_DB
             (serve_all Mock.save_upload (Mock.parse_test_file (Returned [Mock.row_quota]))
                        Mock.uuid4 Mock.generate_initial_script Mock.execute_test_case
                        Mock.sleep [PostRunTests "b.csv" []; GetReport "run-2"] st)
             !! "run-2").
Proof.
  intros st.
  assert (H : is_Some (REPORT_DB st !! "run-2")).
  { vm_compute. eexists. reflexivity. }
  split; [exact H|].
  exact (stored_runs_are_never_removed
           Mock.save_upload (Mock.parse_test_file (Returned [Mock.row_quota]))
           Mock.uuid4 Mock.generate_initial_script Mock.execute_test_case Mock.sleep
           [PostRunTests "b.csv" []; GetReport "run-2"] st "run-2" H).
Defined.

Lemma batch_leaves_other_runs_alone_witness :
  let st := snd (Mock.handle (Returned [Mock.row_login]) "a.csv" [] (initial_state 0)) in
  REPORT_DB (snd (run_tests Mock.uuid4 Mock.generate_initial_script
                            Mock.execute_test_case Mock.sleep [Mock.row_quota] st))
    !! "run-2" = REPORT_DB st !! "run-2".
Proof.
  intros st.
  refine (proj1 (batch_leaves_other_runs_alone
                   Mock.uuid4 Mock.generate_initial_script Mock.execute_test_case
                   Mock.sleep [Mock.row_quota] st "run-2" _)).
  vm_compute. discriminate.
Defined.

Lemma batch_of_skipped_rows_witness :
  fst (run_tests Mock.uuid4 Mock.generate_initial_script Mock.execute_test_case
                 Mock.sleep [Mock.row_blank; Mock.row_blank] (initial_state 0)) =
  RedirectResponse "/report/run-0" 303.
Proof.
  refine (f_equal fst (batch_of_skipped_rows
                         Mock.uuid4 Mock.generate_initial_script
                         Mock.execute_test_case Mock.sleep
                         [Mock.row_blank; Mock.row_blank] (initial_state 0) _)).
  repeat constructor.
Defined.

Lemma report_ids_follow_input_order_witness :
  map test_case_id
      (batch_reports Mock.generate_initial_script Mock.execute_test_case Mock.sleep
         [Mock.row_login; Mock.row_blank; Mock.row_quota; Mock.row_unnamed]
         (initial_state 0)) =
  map (fun row => test_case_id_of (fst row) (snd row))
      (kept_rows [Mock.row_login; Mock.row_blank; Mock.row_quota; Mock.row_unnamed]).
Proof.
  apply (report_ids_follow_input_order
           Mock.generate_initial_script Mock.execute_test_case Mock.sleep).
  intros w id s d. reflexivity.
Defined.
